(** * Shallow embedding of the CRM API handlers (src/main.py)

    The handlers are FastAPI functions over a Supabase client.  The
    database and its stored procedures are an external collaborator: we
    model them as a [backend] record of two functions, one for table
    selects and one for remote procedure calls, each either returning
    the rows or failing (a failure raises in the client and surfaces as
    a server error).  A Python exception raised inside a handler is
    modelled by [None] in the [option] result. *)

From Stdlib Require Import String List ZArith Lia Bool Permutation.
From Stdlib Require Import DecimalString OrdersEx RelationClasses.
Import ListNotations.
Open Scope string_scope.

(** ** Python values and dicts *)

Module Py.

(** The JSON scalars a fetched row carries. *)
Inductive pyval : Type :=
| VNone
| VBool (b : bool)
| VInt (z : Z)
| VStr (s : string).

(** A dict as an association list; the first binding of a key wins. *)
Definition dict := list (string * pyval).

Fixpoint dict_lookup (k : string) (d : dict) : option pyval :=
  match d with
  | [] => None
  | (k', v) :: d' => if String.eqb k k' then Some v else dict_lookup k d'
  end.

(** [d.get(k, default)] *)
Definition py_get (d : dict) (k : string) (default : pyval) : pyval :=
  match dict_lookup k d with Some v => v | None => default end.

(** [d[k]]: raises KeyError when [k] is absent. *)
Definition py_subscript (d : dict) (k : string) : option pyval :=
  dict_lookup k d.

(** [d[k] = v] *)
Definition dict_set (k : string) (v : pyval) (d : dict) : dict :=
  (k, v) :: filter (fun kv => negb (String.eqb k (fst kv))) d.

(** [bool(v)] *)
Definition py_truthy (v : pyval) : bool :=
  match v with
  | VNone => false
  | VBool b => b
  | VInt z => negb (Z.eqb z 0)
  | VStr s => negb (String.eqb s "")
  end.

(** Numeric view: [bool] is a subclass of [int]. *)
Definition py_num (v : pyval) : option Z :=
  match v with
  | VBool b => Some (if b then 1 else 0)%Z
  | VInt z => Some z
  | _ => None
  end.

(** Lexicographic order on code points, as Python compares [str]. *)
Definition str_lt (s t : string) : bool :=
  match String_as_OT.compare s t with Lt => true | _ => false end.

(** [a == b]: never raises; values of unrelated types are unequal. *)
Definition py_eq (a b : pyval) : bool :=
  match a, b with
  | VNone, VNone => true
  | VStr s, VStr t => String.eqb s t
  | _, _ =>
      match py_num a, py_num b with
      | Some x, Some y => Z.eqb x y
      | _, _ => false
      end
  end.

(** [a < b]: TypeError unless both are [str] or both numeric. *)
Definition py_lt (a b : pyval) : option bool :=
  match a, b with
  | VStr s, VStr t => Some (str_lt s t)
  | _, _ =>
      match py_num a, py_num b with
      | Some x, Some y => Some (Z.ltb x y)
      | _, _ => None
      end
  end.

(** [a >= b], i.e. [not (a < b)] on these types. *)
Definition py_ge (a b : pyval) : option bool :=
  option_map negb (py_lt a b).

(** [str(v)] *)
Definition py_str (v : pyval) : string :=
  match v with
  | VNone => "None"
  | VBool true => "True"
  | VBool false => "False"
  | VInt z => NilZero.string_of_int (Z.to_int z)
  | VStr s => s
  end.

(** [s.startswith(p)] *)
Definition py_startswith (s p : string) : bool := String.prefix p s.

(** [len([x for x in xs if p(x)])] where [p] may raise. *)
Fixpoint py_count {A} (p : A -> option bool) (xs : list A) : option nat :=
  match xs with
  | [] => Some 0
  | x :: xs' =>
      match p x, py_count p xs' with
      | Some b, Some n => Some ((if b then 1 else 0) + n)
      | _, _ => None
      end
  end.

End Py.
Import Py.

Notation "x <- m ;; k" := (match m with Some x => k | None => None end)
  (at level 61, m at next level, right associativity).

(** ** The record store (Supabase) as seen by the handlers *)

Module Store.

Definition row := dict.

(** The query builder filters used by the handlers. *)
Inductive filter_op : Type :=
| Eq (col : string) (v : pyval)
| Gte (col : string) (v : pyval)
| Like (col : string) (pattern : string).

(** [supabase.from_(table).select("*")] followed by the filters. *)
Record query : Type := Query { q_table : string; q_filters : list filter_op }.

Definition params := list (string * pyval).

(** [execute()] either delivers the rows or raises. *)
Record backend : Type := Backend {
  run_select : query -> option (list row);
  run_rpc : string -> params -> option (list row)
}.

(** [.maybe_single().execute()]: with no row, [execute()] returns [None]
    instead of a response ([Some None]); with one row, a response whose
    [data] is that row; with more than one row it raises. *)
Definition maybe_single (rows : list row) : option (option row) :=
  match rows with
  | [] => Some None
  | [r] => Some (Some r)
  | _ => None
  end.

(** [res.data] on the result of [maybe_single]: AttributeError when
    [res] is [None]. *)
Definition response_data (res : option row) : option row :=
  match res with Some d => Some d | None => None end.

End Store.
Import Store.

(** ** Handlers *)

(** GET /auth/profile *)
Definition get_profile (be : backend) (phone : string) : option row :=
  rows <- run_select be (Query "db_executives" [Eq "mobile" (VStr phone)]) ;;
  res <- maybe_single rows ;;
  data <- response_data res ;;
  (* res.data or {} *)
  Some (match data with [] => [] | _ => data end).

Record dashboard_summary : Type := DashboardSummary {
  total_assigned : nat;
  hot_leads : nat;
  followups_today : nat;
  fresh : nat;
  bargainers : nat
}.

Definition candidates_query (executive_id : string) : query :=
  Query "db_candidates" [Eq "executive_id" (VStr executive_id)].

(** GET /executive/dashboard; [today] is [datetime.now().strftime("%Y-%m-%d")]. *)
Definition get_dashboard (be : backend) (today executive_id : string)
  : option dashboard_summary :=
  data <- run_select be (candidates_query executive_id) ;;
  hot <- py_count (fun x => py_ge (py_get x "lead_heat_score" (VInt 0)) (VInt 70)) data ;;
  fresh <- py_count (fun x => Some (py_eq (py_get x "lead_status" VNone) (VStr "fresh"))) data ;;
  bargaining <- py_count
    (fun x => Some (py_eq (py_get x "lead_status" VNone) (VStr "bargaining"))) data ;;
  follow_up_today <- py_count
    (fun x => if py_truthy (py_get x "follow_up_at" VNone)
              then (v <- py_subscript x "follow_up_at" ;;
                    Some (py_startswith (py_str v) today))
              else Some false) data ;;
  Some {| total_assigned := length data;
          hot_leads := hot;
          followups_today := follow_up_today;
          fresh := fresh;
          bargainers := bargaining |}.

Record perf_summary : Type := PerfSummary {
  calls : nat;
  connected : nat;
  not_lifted : nat;
  offers_sent : nat
}.

(** GET /executive/performance *)
Definition exec_perf (be : backend) (executive_id : string) : option perf_summary :=
  calls_data <- run_select be (Query "db_call_logs" [Eq "executive_id" (VStr executive_id)]) ;;
  offers_data <- run_select be (Query "db_offers_sent" [Eq "executive_id" (VStr executive_id)]) ;;
  connected <- py_count
    (fun c => v <- py_subscript c "action_type" ;; Some (py_eq v (VStr "connected"))) calls_data ;;
  not_lifted <- py_count
    (fun c => v <- py_subscript c "action_type" ;; Some (py_eq v (VStr "not_lifted"))) calls_data ;;
  Some {| calls := length calls_data;
          connected := connected;
          not_lifted := not_lifted;
          offers_sent := length offers_data |}.

(** ** Sorting: [sorted(leads, key=lambda x: x.get("created_at", ""), reverse=True)] *)

Module Sort.

Definition created_key (x : row) : pyval := py_get x "created_at" (VStr "").

(** Stable descending insertion: [x] precedes the rows of the sorted
    tail unless its key is strictly smaller. *)
Fixpoint insert_desc {A} (lt : A -> A -> bool) (x : A) (l : list A) : list A :=
  match l with
  | [] => [x]
  | y :: l' => if lt x y then y :: insert_desc lt x l' else x :: l
  end.

Fixpoint isort_desc {A} (lt : A -> A -> bool) (l : list A) : list A :=
  match l with
  | [] => []
  | x :: l' => insert_desc lt x (isort_desc lt l')
  end.

Definition is_str (v : pyval) : bool := match v with VStr _ => true | _ => false end.
Definition is_num (v : pyval) : bool := match py_num v with Some _ => true | None => false end.
Definition as_str (v : pyval) : string := match v with VStr s => s | _ => "" end.
Definition as_num (v : pyval) : Z := match py_num v with Some z => z | None => 0%Z end.

(** Python's sort compares keys with [<] only: all-[str] or all-numeric
    keys sort; with two or more rows any other mix raises TypeError;
    a list of at most one row is returned without a comparison. *)
Definition sorted_newest (leads : list row) : option (list row) :=
  let keys := map created_key leads in
  if forallb is_str keys then
    Some (isort_desc (fun x y => str_lt (as_str (created_key x)) (as_str (created_key y))) leads)
  else if forallb is_num keys then
    Some (isort_desc (fun x y => Z.ltb (as_num (created_key x)) (as_num (created_key y))) leads)
  else if Nat.leb (length leads) 1 then Some leads
  else None.

End Sort.
Import Sort.

Record lead_list : Type := LeadList {
  ll_executive_id : string;
  lead_count : nat;
  leads : list row
}.

Definition opt_str (o : option string) : pyval :=
  match o with Some s => VStr s | None => VNone end.
Definition opt_int (o : option Z) : pyval :=
  match o with Some z => VInt z | None => VNone end.

(** [x == "newest"] for an optional query field. *)
Definition is_newest (o : option string) : bool :=
  match o with Some s => String.eqb s "newest" | None => false end.

(** The query built by GET /executive/leads before [execute()]. *)
Definition lead_list_get_query (today executive_id : string)
    (status : option string) (heat_min : option Z)
    (follow_up_due : option string) : query :=
  let query0 := [Eq "executive_id" (VStr executive_id)] in
  let query1 := if py_truthy (opt_str status)
                then (query0 ++ [Eq "lead_status" (opt_str status)])%list else query0 in
  let query2 := if py_truthy (opt_int heat_min)
                then (query1 ++ [Gte "lead_heat_score" (opt_int heat_min)])%list else query1 in
  let query3 := if py_eq (opt_str follow_up_due) (VStr "today")
                then (query2 ++ [Like "follow_up_at" (String.append today "%")])%list
                else query2 in
  Query "db_candidates" query3.

(** GET /executive/leads *)
Definition lead_list_get (be : backend) (today executive_id : string)
    (status : option string) (heat_min : option Z)
    (follow_up_due : option string) (sort : option string) : option lead_list :=
  leads0 <- run_select be (lead_list_get_query today executive_id status heat_min follow_up_due) ;;
  leads1 <- (if is_newest sort then sorted_newest leads0 else Some leads0) ;;
  Some {| ll_executive_id := executive_id; lead_count := length leads1; leads := leads1 |}.

(** The pydantic model [FilterPayload]. *)
Record FilterPayload : Type := MkFilterPayload {
  executive_id : string;
  state : option string;
  category : option string;
  gender : option string;
  status : option string;
  bargain_type : option string;
  min_heat : option Z;
  max_heat : option Z;
  prospect_percent : option Z;
  sort_by : option string
}.

(** A request body carrying only [executive_id]: every other field takes
    its declared default ([None], and [100] for [max_heat]). *)
Definition FilterPayload_defaults (eid : string) : FilterPayload :=
  {| executive_id := eid; state := None; category := None; gender := None;
     status := None; bargain_type := None; min_heat := None;
     max_heat := Some 100%Z; prospect_percent := None; sort_by := None |}.

Definition lead_list_post_params (payload : FilterPayload) : params :=
  [("p_executive_id", VStr (executive_id payload));
   ("p_state", opt_str (state payload));
   ("p_category", opt_str (category payload));
   ("p_gender", opt_str (gender payload));
   ("p_status", opt_str (status payload));
   ("p_bargain", opt_str (bargain_type payload));
   ("p_min_heat", opt_int (min_heat payload));
   ("p_max_heat", opt_int (max_heat payload))].

(** POST /executive/leads *)
Definition lead_list_post (be : backend) (payload : FilterPayload) : option lead_list :=
  leads0 <- run_rpc be "get_leads_filtered" (lead_list_post_params payload) ;;
  leads1 <- (if is_newest (sort_by payload) then sorted_newest leads0 else Some leads0) ;;
  Some {| ll_executive_id := executive_id payload;
          lead_count := length leads1; leads := leads1 |}.

Record manager_view : Type := ManagerView {
  mv_name : pyval;
  assigned_count : nat;
  mv_leads : list row
}.

(** GET /manager/executive/leads *)
Definition manager_leads (be : backend) (eid : string) : option manager_view :=
  exec_rows <- run_select be (Query "db_executives" [Eq "executive_id" (VStr eid)]) ;;
  exec_profile <- maybe_single exec_rows ;;
  leads_data <- run_select be (candidates_query eid) ;;
  (* exec_profile.data.get("name", "") *)
  d <- response_data exec_profile ;;
  let name := py_get d "name" (VStr "") in
  Some {| mv_name := name; assigned_count := length leads_data; mv_leads := leads_data |}.

Record lead_detail_resp : Type := LeadDetail {
  candidate : option row;
  timeline : list row;
  offers : list row
}.

(** GET /lead/detail *)
Definition lead_detail (be : backend) (id : Z) : option lead_detail_resp :=
  cand_rows <- run_select be (Query "db_candidates" [Eq "id" (VInt id)]) ;;
  cand <- maybe_single cand_rows ;;
  timeline <- run_rpc be "get_timeline" [("p_candidate_id", VInt id)] ;;
  offers <- run_rpc be "get_offers_for_candidate" [("p_candidate_id", VInt id)] ;;
  (* cand.data *)
  cand_data <- response_data cand ;;
  Some {| candidate := Some cand_data; timeline := timeline; offers := offers |}.

(** The pydantic model [BulkAssignPayload]. *)
Record BulkAssignPayload : Type := MkBulkAssignPayload {
  assign_from : string;
  assign_to : string;
  candidate_ids : list Z;
  reason : option string
}.

Definition assign_params (payload : BulkAssignPayload) (cid : Z) : params :=
  [("p_candidate_id", VInt cid);
   ("p_assign_to", VStr (assign_to payload));
   ("p_assign_from", VStr (assign_from payload));
   ("p_reason", opt_str (reason payload))].

(** The [for] loop of [assign_bulk]: the calls issued, in order, and
    whether the loop ran to completion ([None]: an [execute()] raised). *)
Fixpoint assign_loop (be : backend) (payload : BulkAssignPayload) (cids : list Z)
  : list params * option unit :=
  match cids with
  | [] => ([], Some tt)
  | cid :: rest =>
      match run_rpc be "assign_lead" (assign_params payload cid) with
      | None => ([assign_params payload cid], None)
      | Some _ =>
          let (trace, r) := assign_loop be payload rest in
          (assign_params payload cid :: trace, r)
      end
  end.

(** POST /manager/assign-leads: the issued calls and the response
    [{"assigned": len(payload.candidate_ids)}]. *)
Definition assign_bulk (be : backend) (payload : BulkAssignPayload)
  : list params * option nat :=
  let (trace, r) := assign_loop be payload (candidate_ids payload) in
  (trace, option_map (fun _ => length (candidate_ids payload)) r).

(** ** Reading the claims over the model *)

(** A heat score as the data model has it: absent, or an integer. *)
Definition heat_ok (r : row) : bool :=
  match dict_lookup "lead_heat_score" r with
  | None | Some (VInt _) => true
  | Some _ => false
  end.

(** The heat score of a row, [0] when it has none. *)
Definition heat_score (r : row) : Z :=
  match dict_lookup "lead_heat_score" r with Some (VInt z) => z | _ => 0%Z end.

Definition status_is (s : string) (r : row) : bool :=
  match dict_lookup "lead_status" r with Some (VStr t) => String.eqb t s | _ => false end.

(** The follow-up timestamp, rendered as a string, starts with [today]. *)
Definition follow_up_starts_with (today : string) (r : row) : bool :=
  match dict_lookup "follow_up_at" r with
  | Some v => py_startswith (py_str v) today
  | None => false
  end.

(** Every row's creation timestamp is a string (or absent, read as [""]). *)
Definition str_keys (l : list row) : bool := forallb (fun x => is_str (created_key x)) l.

Definition created_str (x : row) : string := as_str (created_key x).

(** Non-increasing creation timestamps between neighbours. *)
Definition created_desc (x y : row) : Prop := str_lt (created_str x) (created_str y) = false.

(** Strictly older creation timestamp: the comparison [sorted_newest] uses. *)
Definition created_lt (x y : row) : bool := str_lt (created_str x) (created_str y).

Definition has_created (k : string) (x : row) : bool := String.eqb (created_str x) k.

(** [out] is [input] reordered descending by creation timestamp, stably,
    and sorting [out] again leaves it unchanged. *)
Definition newest_order (input out : list row) : Prop :=
  Permutation input out /\
  Sorted.Sorted created_desc out /\
  (forall k, filter (has_created k) out = filter (has_created k) input) /\
  sorted_newest out = Some out.

(** The sort step shared by both lead-list handlers. *)
Definition sort_step (directive : option string) (leads0 : list row) : option (list row) :=
  if is_newest directive then sorted_newest leads0 else Some leads0.

(** ** Reading the code's own behaviour *)

(** [x.get("lead_heat_score", 0) >= 70] does not raise: the score is
    absent, an integer or a boolean. *)
Definition heat_comparable (r : row) : bool :=
  match dict_lookup "lead_heat_score" r with None => true | Some v => is_num v end.

Definition has_action_type (r : row) : bool :=
  match dict_lookup "action_type" r with Some _ => true | None => false end.

(** [c["action_type"] == s] for a row that has the key. *)
Definition action_is (s : string) (r : row) : bool :=
  match dict_lookup "action_type" r with Some v => py_eq v (VStr s) | None => false end.

(** ** Concrete inputs *)

(** A store with no rows anywhere. *)
Definition empty_backend : backend := Backend (fun _ => Some []) (fun _ _ => Some []).

(** Call logs with one row that has no [action_type] key. *)
Definition call_log_without_action_type : backend :=
  Backend (fun q => if String.eqb (q_table q) "db_call_logs"
                    then Some [[("id", VInt 1%Z); ("executive_id", VStr "E1")]]
                    else Some [])
          (fun _ _ => Some []).

(** [assign_lead] fails for candidate 11 and succeeds otherwise. *)
Definition assign_fails_on_11 : backend :=
  Backend (fun _ => Some [])
          (fun name ps => if String.eqb name "assign_lead"
                          then match dict_lookup "p_candidate_id" ps with
                               | Some (VInt 11) => None
                               | _ => Some []
                               end
                          else Some []).

Definition bulk_10_11_12 : BulkAssignPayload :=
  {| assign_from := "A"; assign_to := "B"; candidate_ids := [10; 11; 12]%Z; reason := None |}.

(** A store that answers every select and every call with [rows]. *)
Definition rows_backend (rows : list row) : backend :=
  Backend (fun _ => Some rows) (fun _ _ => Some rows).

(** Three candidates, one of them with a follow-up on 2026-10-18. *)
Definition cand_a : row :=
  [("id", VInt 1%Z); ("lead_heat_score", VInt 80%Z); ("lead_status", VStr "fresh");
   ("follow_up_at", VStr "2026-10-18T09:30:00"); ("created_at", VStr "2026-10-01T08:00:00")].
Definition cand_b : row :=
  [("id", VInt 2%Z); ("lead_heat_score", VInt 50%Z); ("lead_status", VStr "bargaining");
   ("follow_up_at", VStr ""); ("created_at", VStr "2026-10-03T08:00:00")].
Definition cand_c : row :=
  [("id", VInt 3%Z); ("lead_heat_score", VInt 90%Z); ("lead_status", VStr "fresh");
   ("follow_up_at", VNone); ("created_at", VStr "2026-10-01T08:00:00")].

(** ** Lemmas *)

Lemma py_count_filter {A} (p : A -> option bool) (f : A -> bool) (l : list A) :
  (forall x, In x l -> p x = Some (f x)) ->
  py_count p l = Some (length (filter f l)).
Proof.
  induction l as [|x l IH]; intros Hp; simpl; [reflexivity|].
  rewrite (Hp x (or_introl eq_refl)), IH by (intros y Hy; apply Hp; now right).
  destruct (f x); reflexivity.
Qed.

Lemma assign_loop_all_ok be payload cids :
  (forall cid, In cid cids ->
     exists r, run_rpc be "assign_lead" (assign_params payload cid) = Some r) ->
  assign_loop be payload cids = (map (assign_params payload) cids, Some tt).
Proof.
  induction cids as [|cid rest IH]; intros Hok; simpl; [reflexivity|].
  destruct (Hok cid (or_introl eq_refl)) as [r Hr]; rewrite Hr.
  rewrite IH by (intros c Hc; apply Hok; now right); reflexivity.
Qed.

Lemma assign_loop_stops be payload pre cid post :
  (forall c, In c pre ->
     exists r, run_rpc be "assign_lead" (assign_params payload c) = Some r) ->
  run_rpc be "assign_lead" (assign_params payload cid) = None ->
  assign_loop be payload (pre ++ cid :: post) = (map (assign_params payload) (pre ++ [cid]), None).
Proof.
  induction pre as [|c pre IH]; intros Hok Hfail; simpl.
  - rewrite Hfail; reflexivity.
  - destruct (Hok c (or_introl eq_refl)) as [r Hr]; rewrite Hr.
    rewrite IH by (try (intros c' Hc'; apply Hok; now right); assumption); reflexivity.
Qed.

Lemma prefix_length (p s : string) :
  String.prefix p s = true -> String.length p <= String.length s.
Proof.
  revert s; induction p as [|a p IH]; intros s H; simpl; [lia|].
  destruct s as [|b s]; simpl in H; [discriminate|].
  destruct (Ascii.ascii_dec a b); [|discriminate].
  simpl; apply IH in H; lia.
Qed.

(** A falsy value never renders as a string starting with a date. *)
Lemma falsy_not_date_prefix (v : pyval) (today : string) :
  String.length today = 10 -> py_truthy v = false ->
  py_startswith (py_str v) today = false.
Proof.
  intros Hlen Hf; unfold py_startswith.
  destruct (String.prefix today (py_str v)) eqn:E; [|reflexivity].
  apply prefix_length in E; rewrite Hlen in E; exfalso.
  destruct v as [|b|z|s]; simpl in Hf.
  - simpl in E; lia.
  - subst b; simpl in E; lia.
  - apply negb_false_iff, Z.eqb_eq in Hf; subst z; simpl in E; lia.
  - apply negb_false_iff, String.eqb_eq in Hf; subst s; simpl in E; lia.
Qed.

Lemma dict_lookup_set_same (k : string) (v : pyval) (d : dict) :
  dict_lookup k (dict_set k v d) = Some v.
Proof. unfold dict_set; simpl; rewrite String.eqb_refl; reflexivity. Qed.

Lemma dict_lookup_set_other (k k' : string) (v : pyval) (d : dict) :
  k <> k' -> dict_lookup k' (dict_set k v d) = dict_lookup k' d.
Proof.
  intros Hne; unfold dict_set; simpl.
  destruct (String.eqb_spec k' k) as [->|_]; [congruence|].
  induction d as [|[k0 v0] d IH]; simpl; [reflexivity|].
  destruct (String.eqb_spec k k0) as [->|Hk]; simpl.
  - destruct (String.eqb_spec k' k0); [congruence|]; exact IH.
  - destruct (String.eqb k' k0); [reflexivity|exact IH].
Qed.

(** The dashboard as counts over the fetched rows. *)
Lemma get_dashboard_counts (be : backend) (today eid : string) (rows : list row) :
  run_select be (candidates_query eid) = Some rows ->
  forallb heat_ok rows = true ->
  get_dashboard be today eid =
    Some {| total_assigned := length rows;
            hot_leads := length (filter (fun r => Z.leb 70 (heat_score r)) rows);
            followups_today := length (filter (fun r => py_truthy (py_get r "follow_up_at" VNone)
                                                        && follow_up_starts_with today r) rows);
            fresh := length (filter (status_is "fresh") rows);
            bargainers := length (filter (status_is "bargaining") rows) |}.
Proof.
  intros Hsel Hok; rewrite forallb_forall in Hok.
  unfold get_dashboard; rewrite Hsel.
  rewrite (py_count_filter _ (fun r => Z.leb 70 (heat_score r))).
  2:{ intros x Hx; specialize (Hok x Hx); unfold heat_ok in Hok; unfold heat_score, py_get.
      destruct (dict_lookup "lead_heat_score" x) as [[| | |]|]; try discriminate;
        unfold py_ge; simpl; rewrite ?Z.ltb_antisym, ?negb_involutive; reflexivity. }
  rewrite (py_count_filter _ (status_is "fresh")).
  2:{ intros x _; unfold status_is, py_get.
      destruct (dict_lookup "lead_status" x) as [[| | |]|]; reflexivity. }
  rewrite (py_count_filter _ (status_is "bargaining")).
  2:{ intros x _; unfold status_is, py_get.
      destruct (dict_lookup "lead_status" x) as [[| | |]|]; reflexivity. }
  rewrite (py_count_filter _ (fun r => py_truthy (py_get r "follow_up_at" VNone)
                                      && follow_up_starts_with today r)).
  2:{ intros x _; unfold follow_up_starts_with, py_get, py_subscript.
      destruct (dict_lookup "follow_up_at" x) as [v|]; simpl; [|reflexivity].
      destruct (py_truthy v); reflexivity. }
  reflexivity.
Qed.

(** With a ten-character date, the truthiness guard changes nothing. *)
Lemma followups_guard_redundant (today : string) (rows : list row) :
  String.length today = 10 ->
  filter (fun r => py_truthy (py_get r "follow_up_at" VNone) && follow_up_starts_with today r) rows =
  filter (follow_up_starts_with today) rows.
Proof.
  intros Hlen; apply filter_ext; intros r.
  unfold follow_up_starts_with, py_get.
  destruct (dict_lookup "follow_up_at" r) as [v|]; [|reflexivity].
  destruct (py_truthy v) eqn:Ht; [reflexivity|].
  simpl; symmetry; apply falsy_not_date_prefix; assumption.
Qed.

Lemma count_mid {A} (f : A -> bool) (l1 l2 : list A) (x : A) :
  length (filter f (l1 ++ x :: l2)) =
  length (filter f l1) + (if f x then 1 else 0) + length (filter f l2).
Proof. rewrite filter_app, length_app; simpl; destruct (f x); simpl; lia. Qed.

(** *** The insertion sort behind [sorted_newest] *)

Section InsertionSort.

Variables (A K : Type) (key : A -> K) (slt : K -> K -> bool) (keq : K -> K -> bool).
Hypothesis keq_true : forall a b, keq a b = true <-> a = b.
Hypothesis slt_irrefl : forall a, slt a a = false.
Hypothesis slt_asym : forall a b, slt a b = true -> slt b a = false.

Let lt (x y : A) : bool := slt (key x) (key y).
Let ge (x y : A) : Prop := slt (key x) (key y) = false.
Let same (k : K) (x : A) : bool := keq (key x) k.

Lemma insert_desc_perm (x : A) (l : list A) : Permutation (insert_desc lt x l) (x :: l).
Proof.
  induction l as [|y l IH]; simpl; [reflexivity|].
  destruct (lt x y); [|reflexivity].
  rewrite IH; apply perm_swap.
Qed.

Lemma isort_desc_perm (l : list A) : Permutation (isort_desc lt l) l.
Proof.
  induction l as [|x l IH]; simpl; [reflexivity|].
  rewrite insert_desc_perm, IH; reflexivity.
Qed.

Lemma insert_desc_sorted (x : A) (l : list A) :
  Sorted.Sorted ge l -> Sorted.Sorted ge (insert_desc lt x l).
Proof.
  induction l as [|y l IH]; simpl; intros Hs.
  - repeat constructor.
  - destruct (lt x y) eqn:Exy.
    + inversion Hs as [|? ? Hl Hhd]; subst.
      constructor; [apply IH, Hl|].
      destruct l as [|z l]; simpl.
      * constructor; apply slt_asym, Exy.
      * destruct (lt x z); constructor; [|apply slt_asym, Exy].
        inversion Hhd; assumption.
    + constructor; [exact Hs|constructor; exact Exy].
Qed.

Lemma isort_desc_sorted (l : list A) : Sorted.Sorted ge (isort_desc lt l).
Proof.
  induction l as [|x l IH]; simpl; [constructor|].
  apply insert_desc_sorted, IH.
Qed.

Lemma insert_desc_same (k : K) (x : A) (l : list A) :
  filter (same k) (insert_desc lt x l) =
  if same k x then x :: filter (same k) l else filter (same k) l.
Proof.
  induction l as [|y l IH]; simpl.
  - destruct (same k x); reflexivity.
  - destruct (lt x y) eqn:Exy; simpl.
    + rewrite IH.
      destruct (same k x) eqn:Ex, (same k y) eqn:Ey; try reflexivity.
      unfold same in Ex, Ey; apply keq_true in Ex, Ey.
      unfold lt in Exy; rewrite Ex, <- Ey, slt_irrefl in Exy; discriminate.
    + destruct (same k x), (same k y); reflexivity.
Qed.

(** Rows with equal keys keep their input order. *)
Lemma isort_desc_same (k : K) (l : list A) :
  filter (same k) (isort_desc lt l) = filter (same k) l.
Proof.
  induction l as [|x l IH]; simpl; [reflexivity|].
  rewrite insert_desc_same, IH; reflexivity.
Qed.

(** A list already in order is left as it is. *)
Lemma isort_desc_sorted_id (l : list A) : Sorted.Sorted ge l -> isort_desc lt l = l.
Proof.
  induction l as [|x l IH]; simpl; intros Hs; [reflexivity|].
  inversion Hs as [|? ? Hl Hhd]; subst.
  rewrite (IH Hl).
  destruct l as [|y l]; simpl; [reflexivity|].
  inversion Hhd as [|? ? Hxy]; subst.
  unfold lt; rewrite Hxy; reflexivity.
Qed.

End InsertionSort.

Lemma str_lt_true (s t : string) : str_lt s t = true <-> String_as_OT.lt s t.
Proof.
  unfold str_lt, String_as_OT.lt.
  destruct (String_as_OT.compare s t); split; congruence.
Qed.

Lemma str_lt_irrefl (s : string) : str_lt s s = false.
Proof.
  destruct (str_lt s s) eqn:E; [|reflexivity].
  apply str_lt_true in E; exfalso; exact (StrictOrder_Irreflexive s E).
Qed.

Lemma str_lt_asym (s t : string) : str_lt s t = true -> str_lt t s = false.
Proof.
  intros H; destruct (str_lt t s) eqn:E; [|reflexivity].
  apply str_lt_true in H, E; exfalso.
  exact (StrictOrder_Irreflexive s (StrictOrder_Transitive s t s H E)).
Qed.

Lemma forallb_is_str_map (l : list row) :
  forallb is_str (map created_key l) = str_keys l.
Proof. induction l as [|x l IH]; simpl; [reflexivity|]; rewrite IH; reflexivity. Qed.

Lemma str_keys_perm (l l' : list row) :
  Permutation l l' -> str_keys l = true -> str_keys l' = true.
Proof.
  unfold str_keys; rewrite !forallb_forall; intros Hp H x Hx.
  apply H, (Permutation_in x (Permutation_sym Hp) Hx).
Qed.

Lemma sorted_newest_str (l : list row) :
  str_keys l = true -> sorted_newest l = Some (isort_desc created_lt l).
Proof.
  intros H; unfold sorted_newest; rewrite forallb_is_str_map, H; reflexivity.
Qed.

Lemma newest_order_isort (l : list row) :
  str_keys l = true -> newest_order l (isort_desc created_lt l).
Proof.
  intros H; unfold newest_order.
  assert (Hp : Permutation l (isort_desc created_lt l))
    by exact (Permutation_sym (isort_desc_perm _ _ created_str str_lt l)).
  assert (Hs : Sorted.Sorted created_desc (isort_desc created_lt l))
    by exact (isort_desc_sorted _ _ created_str str_lt str_lt_asym l).
  split; [exact Hp|]; split; [exact Hs|]; split.
  - intros k; exact (isort_desc_same _ _ created_str str_lt String.eqb
                       String.eqb_eq str_lt_irrefl k l).
  - rewrite sorted_newest_str by exact (str_keys_perm _ _ Hp H).
    f_equal; exact (isort_desc_sorted_id _ _ created_str str_lt _ Hs).
Qed.

Lemma is_newest_true (o : option string) : is_newest o = true <-> o = Some "newest".
Proof.
  destruct o as [s|]; simpl; [|split; discriminate].
  rewrite String.eqb_eq; split; [intros ->|intros H; injection H]; auto.
Qed.

Lemma sort_step_newest (directive : option string) (data : list row) :
  directive = Some "newest" -> str_keys data = true ->
  exists out, sort_step directive data = Some out /\ newest_order data out.
Proof.
  intros Hd Hk; exists (isort_desc created_lt data); split.
  - unfold sort_step; rewrite Hd; simpl; apply sorted_newest_str, Hk.
  - apply newest_order_isort, Hk.
Qed.

Lemma sort_step_other (directive : option string) (data : list row) :
  directive <> Some "newest" -> sort_step directive data = Some data.
Proof.
  intros Hd; unfold sort_step.
  destruct (is_newest directive) eqn:E; [apply is_newest_true in E; contradiction|reflexivity].
Qed.

(** ** Claims *)

(** C3: with no fetched rows, the dashboard summary and the performance
    summary are all zeros. *)
Theorem empty_rows_zero_summaries (be : backend) (today eid : string) :
  run_select be (candidates_query eid) = Some [] ->
  run_select be (Query "db_call_logs" [Eq "executive_id" (VStr eid)]) = Some [] ->
  run_select be (Query "db_offers_sent" [Eq "executive_id" (VStr eid)]) = Some [] ->
  get_dashboard be today eid = Some (DashboardSummary 0 0 0 0 0) /\
  exec_perf be eid = Some (PerfSummary 0 0 0 0).
Proof.
  intros Hc Hl Ho; unfold get_dashboard, exec_perf.
  rewrite Hc, Hl, Ho; split; reflexivity.
Qed.

Lemma empty_rows_zero_summaries_witness :
  get_dashboard empty_backend "2026-10-18" "E1" = Some (DashboardSummary 0 0 0 0 0) /\
  exec_perf empty_backend "E1" = Some (PerfSummary 0 0 0 0).
Proof. apply (empty_rows_zero_summaries empty_backend "2026-10-18" "E1"); reflexivity. Defined.

(** C6 (counterexample): with every optional field left unset, the
    parameter [p_max_heat] is forwarded as [100], not as [None]. *)
Lemma filter_defaults_forward_max_heat :
  ~ (forall kv, In kv (lead_list_post_params (FilterPayload_defaults "E1")) ->
       fst kv = "p_executive_id" \/ snd kv = VNone).
Proof.
  intros H.
  destruct (H ("p_max_heat", VInt 100%Z)) as [Hk|Hv].
  - simpl; tauto.
  - discriminate Hk.
  - discriminate Hv.
Qed.

(** C6 (amended): with every optional field left unset, the remote
    procedure [get_leads_filtered] receives the executive id, [None] for
    state, category, gender, status, bargain type and minimum heat, and the
    default [100] for maximum heat; the rows come back unsorted. *)
Theorem filter_defaults_params (be : backend) (eid : string) :
  lead_list_post_params (FilterPayload_defaults eid) =
    [("p_executive_id", VStr eid); ("p_state", VNone); ("p_category", VNone);
     ("p_gender", VNone); ("p_status", VNone); ("p_bargain", VNone);
     ("p_min_heat", VNone); ("p_max_heat", VInt 100%Z)] /\
  lead_list_post be (FilterPayload_defaults eid) =
    match run_rpc be "get_leads_filtered"
            [("p_executive_id", VStr eid); ("p_state", VNone); ("p_category", VNone);
             ("p_gender", VNone); ("p_status", VNone); ("p_bargain", VNone);
             ("p_min_heat", VNone); ("p_max_heat", VInt 100%Z)] with
    | Some l => Some (LeadList eid (length l) l)
    | None => None
    end.
Proof.
  split; [reflexivity|].
  unfold lead_list_post; simpl.
  destruct (run_rpc be _ _); reflexivity.
Qed.

(** C8 (code bug): a phone number with no executive row, or a candidate
    id with no candidate row, makes the lookup raise AttributeError
    ([execute()] returned [None], whose [.data] is read) instead of
    returning [{}] or a null candidate. *)
Theorem not_found_lookups_raise :
  get_profile empty_backend "5550100" = None /\
  lead_detail empty_backend 42 = None.
Proof. split; reflexivity. Qed.

(** C9: in the simple lead list, [status = ""] and [heat_min = 0] add no
    constraint: the query and the response equal those of the request
    with the field absent. *)
Theorem lead_list_get_falsy_filters (be : backend) (today eid : string)
    (status : option string) (heat_min : option Z) (fud sort : option string) :
  lead_list_get_query today eid (Some "") heat_min fud =
    lead_list_get_query today eid None heat_min fud /\
  lead_list_get be today eid (Some "") heat_min fud sort =
    lead_list_get be today eid None heat_min fud sort /\
  lead_list_get_query today eid status (Some 0%Z) fud =
    lead_list_get_query today eid status None fud /\
  lead_list_get be today eid status (Some 0%Z) fud sort =
    lead_list_get be today eid status None fud sort.
Proof. repeat split; reflexivity. Qed.

(** C10: when no executive row matches the id, the manager view raises
    ([.data] is read from the [None] that [execute()] returned) instead
    of answering. *)
Theorem manager_leads_missing_profile_fails (be : backend) (eid : string) :
  run_select be (Query "db_executives" [Eq "executive_id" (VStr eid)]) = Some [] ->
  manager_leads be eid = None.
Proof.
  intros H; unfold manager_leads; rewrite H; simpl.
  destruct (run_select be (candidates_query eid)); reflexivity.
Qed.

Lemma manager_leads_missing_profile_fails_witness :
  manager_leads empty_backend "E404" = None.
Proof. apply manager_leads_missing_profile_fails; reflexivity. Defined.

(** C2 (code bug): a call-log row without an [action_type] key makes the
    performance handler raise KeyError ([c["action_type"]]) instead of
    counting the row in neither category. *)
Theorem exec_perf_missing_action_type_raises :
  exec_perf call_log_without_action_type "E1" = None.
Proof. reflexivity. Qed.

(** C5 (counterexample): when the call for candidate 11 fails, the calls
    for 10 and 11 have been issued, 12 is never attempted, and no
    [{"assigned": 3}] is returned. *)
Lemma assign_bulk_failure_aborts :
  assign_bulk assign_fails_on_11 bulk_10_11_12 =
    ([assign_params bulk_10_11_12 10; assign_params bulk_10_11_12 11], None).
Proof. reflexivity. Qed.

(** C5 (amended): one [assign_lead] call per candidate id, in list order.
    When every call succeeds the response is [{"assigned": n}]; the first
    failing call ends the loop: the later ids are not attempted, the
    earlier assignments stay, and the handler raises. *)
Theorem assign_bulk_sequential (be : backend) (payload : BulkAssignPayload) :
  ((forall cid, In cid (candidate_ids payload) ->
      exists r, run_rpc be "assign_lead" (assign_params payload cid) = Some r) ->
   assign_bulk be payload =
     (map (assign_params payload) (candidate_ids payload),
      Some (length (candidate_ids payload)))) /\
  (forall pre cid post,
     candidate_ids payload = (pre ++ cid :: post)%list ->
     (forall c, In c pre ->
        exists r, run_rpc be "assign_lead" (assign_params payload c) = Some r) ->
     run_rpc be "assign_lead" (assign_params payload cid) = None ->
     assign_bulk be payload = (map (assign_params payload) (pre ++ [cid])%list, None)).
Proof.
  split.
  - intros Hok; unfold assign_bulk.
    rewrite (assign_loop_all_ok be payload _ Hok); reflexivity.
  - intros pre cid post Hids Hok Hfail; unfold assign_bulk.
    rewrite Hids, (assign_loop_stops be payload pre cid post Hok Hfail); reflexivity.
Qed.

Lemma assign_bulk_sequential_witness :
  assign_bulk empty_backend bulk_10_11_12 =
    ([assign_params bulk_10_11_12 10; assign_params bulk_10_11_12 11;
      assign_params bulk_10_11_12 12], Some 3) /\
  assign_bulk assign_fails_on_11 bulk_10_11_12 =
    ([assign_params bulk_10_11_12 10; assign_params bulk_10_11_12 11], None).
Proof.
  split.
  - apply (proj1 (assign_bulk_sequential empty_backend bulk_10_11_12)).
    intros cid _; exists []; reflexivity.
  - apply (proj2 (assign_bulk_sequential assign_fails_on_11 bulk_10_11_12) [10%Z] 11%Z [12%Z]).
    + reflexivity.
    + intros c [<-|[]]; exists []; reflexivity.
    + reflexivity.
Defined.

(** C1: the dashboard counts the fetched rows: all of them, those with a
    heat score of at least 70 (no heat score counting as 0), those with
    status "fresh" and those with status "bargaining".  Heat scores are
    integers, as the data model has them. *)
Theorem dashboard_counts (be : backend) (today eid : string) (rows : list row) :
  run_select be (candidates_query eid) = Some rows ->
  forallb heat_ok rows = true ->
  exists s, get_dashboard be today eid = Some s /\
    total_assigned s = length rows /\
    hot_leads s = length (filter (fun r => Z.leb 70 (heat_score r)) rows) /\
    fresh s = length (filter (status_is "fresh") rows) /\
    bargainers s = length (filter (status_is "bargaining") rows).
Proof.
  intros Hsel Hok.
  rewrite (get_dashboard_counts be today eid rows Hsel Hok).
  eexists; split; [reflexivity|]; simpl; repeat split.
Qed.

Lemma dashboard_counts_witness :
  exists s, get_dashboard (rows_backend [cand_a; cand_b; cand_c]) "2026-10-18" "E1" = Some s /\
    total_assigned s = 3 /\ hot_leads s = 2 /\ fresh s = 2 /\ bargainers s = 1.
Proof.
  destruct (dashboard_counts (rows_backend [cand_a; cand_b; cand_c]) "2026-10-18" "E1"
              [cand_a; cand_b; cand_c] eq_refl eq_refl) as [s [Hs [H1 [H2 [H3 H4]]]]].
  exists s; rewrite Hs, H1, H2, H3, H4; repeat split.
Defined.

(** C4: [followups_today] counts the rows whose follow-up timestamp, as a
    string, starts with the reference date [today] (a "%Y-%m-%d" string);
    setting one row's timestamp to a string not starting with [today]
    removes that row from the count; a row whose timestamp is absent,
    [None] or empty is never counted. *)
Theorem followups_today_prefix :
  (forall be today eid rows,
     run_select be (candidates_query eid) = Some rows ->
     forallb heat_ok rows = true -> String.length today = 10 ->
     exists s, get_dashboard be today eid = Some s /\
       followups_today s = length (filter (follow_up_starts_with today) rows)) /\
  (forall be be' today eid rows1 r rows2 ts,
     run_select be (candidates_query eid) = Some (rows1 ++ r :: rows2)%list ->
     run_select be' (candidates_query eid) =
       Some (rows1 ++ dict_set "follow_up_at" (VStr ts) r :: rows2)%list ->
     forallb heat_ok (rows1 ++ r :: rows2) = true -> String.length today = 10 ->
     py_startswith ts today = false ->
     exists s s', get_dashboard be today eid = Some s /\ get_dashboard be' today eid = Some s' /\
       followups_today s = followups_today s' + (if follow_up_starts_with today r then 1 else 0)) /\
  (forall be be' today eid rows1 r rows2,
     run_select be (candidates_query eid) = Some (rows1 ++ r :: rows2)%list ->
     run_select be' (candidates_query eid) = Some (rows1 ++ rows2)%list ->
     forallb heat_ok (rows1 ++ r :: rows2) = true -> String.length today = 10 ->
     dict_lookup "follow_up_at" r = None \/ dict_lookup "follow_up_at" r = Some VNone \/
       dict_lookup "follow_up_at" r = Some (VStr "") ->
     exists s s', get_dashboard be today eid = Some s /\ get_dashboard be' today eid = Some s' /\
       followups_today s = followups_today s').
Proof.
  split; [|split].
  - intros be today eid rows Hsel Hok Hlen.
    rewrite (get_dashboard_counts be today eid rows Hsel Hok).
    eexists; split; [reflexivity|]; simpl.
    rewrite followups_guard_redundant by exact Hlen; reflexivity.
  - intros be be' today eid rows1 r rows2 ts Hsel Hsel' Hok Hlen Hts.
    assert (Hok' : forallb heat_ok (rows1 ++ dict_set "follow_up_at" (VStr ts) r :: rows2) = true).
    { rewrite forallb_app in *; simpl in *.
      unfold heat_ok at 2; rewrite dict_lookup_set_other by discriminate.
      exact Hok. }
    rewrite (get_dashboard_counts be today eid _ Hsel Hok),
            (get_dashboard_counts be' today eid _ Hsel' Hok').
    do 2 eexists; split; [reflexivity|]; split; [reflexivity|]; simpl.
    rewrite !followups_guard_redundant by exact Hlen.
    rewrite !count_mid.
    assert (Hf : follow_up_starts_with today (dict_set "follow_up_at" (VStr ts) r) = false).
    { unfold follow_up_starts_with; rewrite dict_lookup_set_same; exact Hts. }
    rewrite Hf; lia.
  - intros be be' today eid rows1 r rows2 Hsel Hsel' Hok Hlen Hr.
    assert (Hok' : forallb heat_ok (rows1 ++ rows2) = true).
    { rewrite forallb_app in *; simpl in *.
      destruct (forallb heat_ok rows1), (heat_ok r), (forallb heat_ok rows2); simpl in *;
        congruence. }
    rewrite (get_dashboard_counts be today eid _ Hsel Hok),
            (get_dashboard_counts be' today eid _ Hsel' Hok').
    do 2 eexists; split; [reflexivity|]; split; [reflexivity|]; simpl.
    rewrite !followups_guard_redundant by exact Hlen.
    rewrite count_mid, filter_app, length_app.
    assert (Hf : follow_up_starts_with today r = false).
    { unfold follow_up_starts_with.
      destruct Hr as [->|[->| ->]]; [reflexivity| |];
        apply falsy_not_date_prefix; [exact Hlen|reflexivity|exact Hlen|reflexivity]. }
    rewrite Hf, Nat.add_0_r; reflexivity.
Qed.

Lemma followups_today_prefix_witness :
  (exists s, get_dashboard (rows_backend [cand_a; cand_b; cand_c]) "2026-10-18" "E1" = Some s /\
     followups_today s = length (filter (follow_up_starts_with "2026-10-18") [cand_a; cand_b; cand_c])) /\
  (exists s s',
     get_dashboard (rows_backend [cand_a; cand_b; cand_c]) "2026-10-18" "E1" = Some s /\
     get_dashboard (rows_backend [dict_set "follow_up_at" (VStr "2026-10-19T09:30:00") cand_a;
                                  cand_b; cand_c]) "2026-10-18" "E1" = Some s' /\
     followups_today s = followups_today s' +
                         (if follow_up_starts_with "2026-10-18" cand_a then 1 else 0)) /\
  (exists s s',
     get_dashboard (rows_backend [cand_a; cand_b; cand_c]) "2026-10-18" "E1" = Some s /\
     get_dashboard (rows_backend [cand_a; cand_b]) "2026-10-18" "E1" = Some s' /\
     followups_today s = followups_today s').
Proof.
  destruct followups_today_prefix as [Ha [Hb Hc]].
  split; [|split].
  - apply (Ha _ "2026-10-18" "E1" [cand_a; cand_b; cand_c]); reflexivity.
  - apply (Hb (rows_backend [cand_a; cand_b; cand_c])
              (rows_backend [dict_set "follow_up_at" (VStr "2026-10-19T09:30:00") cand_a;
                             cand_b; cand_c])
              "2026-10-18" "E1" [] cand_a [cand_b; cand_c] "2026-10-19T09:30:00");
      reflexivity.
  - apply (Hc (rows_backend [cand_a; cand_b; cand_c]) (rows_backend [cand_a; cand_b])
              "2026-10-18" "E1" [cand_a; cand_b] cand_c []); try reflexivity.
    right; left; reflexivity.
Defined.

(** C7: in both lead-list handlers, the directive "newest" returns the
    fetched rows reordered descending by the creation-timestamp string,
    stably (rows with equal timestamps keep their order), and sorting
    that result again changes nothing; any other or absent directive
    returns the rows in the order the store delivered them. *)
Theorem newest_sort_stable_idempotent :
  (forall be today eid status heat_min fud sort data,
     run_select be (lead_list_get_query today eid status heat_min fud) = Some data ->
     (sort = Some "newest" -> str_keys data = true ->
        exists res, lead_list_get be today eid status heat_min fud sort = Some res /\
                    newest_order data (leads res)) /\
     (sort <> Some "newest" ->
        exists res, lead_list_get be today eid status heat_min fud sort = Some res /\
                    leads res = data)) /\
  (forall be payload data,
     run_rpc be "get_leads_filtered" (lead_list_post_params payload) = Some data ->
     (sort_by payload = Some "newest" -> str_keys data = true ->
        exists res, lead_list_post be payload = Some res /\ newest_order data (leads res)) /\
     (sort_by payload <> Some "newest" ->
        exists res, lead_list_post be payload = Some res /\ leads res = data)).
Proof.
  split.
  - intros be today eid status heat_min fud sort data Hsel; split.
    + intros Hd Hk; destruct (sort_step_newest sort data Hd Hk) as [out [Hout Hord]].
      unfold sort_step in Hout; unfold lead_list_get; rewrite Hsel, Hout.
      eexists; split; [reflexivity|exact Hord].
    + intros Hd; pose proof (sort_step_other sort data Hd) as Hout.
      unfold sort_step in Hout; unfold lead_list_get; rewrite Hsel, Hout.
      eexists; split; reflexivity.
  - intros be payload data Hrpc; split.
    + intros Hd Hk; destruct (sort_step_newest _ data Hd Hk) as [out [Hout Hord]].
      unfold sort_step in Hout; unfold lead_list_post; rewrite Hrpc, Hout.
      eexists; split; [reflexivity|exact Hord].
    + intros Hd; pose proof (sort_step_other _ data Hd) as Hout.
      unfold sort_step in Hout; unfold lead_list_post; rewrite Hrpc, Hout.
      eexists; split; reflexivity.
Qed.

Lemma newest_sort_stable_idempotent_witness :
  (exists res, lead_list_get (rows_backend [cand_a; cand_b; cand_c]) "2026-10-18" "E1"
                 None None None (Some "newest") = Some res /\
               newest_order [cand_a; cand_b; cand_c] (leads res) /\
               leads res = [cand_b; cand_a; cand_c]) /\
  (exists res, lead_list_post (rows_backend [cand_a; cand_b; cand_c])
                 (FilterPayload_defaults "E1") = Some res /\
               leads res = [cand_a; cand_b; cand_c]).
Proof.
  destruct newest_sort_stable_idempotent as [Hget Hpost]; split.
  - destruct (proj1 (Hget (rows_backend [cand_a; cand_b; cand_c]) "2026-10-18" "E1"
                         None None None (Some "newest") [cand_a; cand_b; cand_c] eq_refl)
                     eq_refl eq_refl) as [res [Hres Hord]].
    exists res; split; [exact Hres|]; split; [exact Hord|].
    vm_compute in Hres; injection Hres as <-; reflexivity.
  - destruct (proj2 (Hpost (rows_backend [cand_a; cand_b; cand_c]) (FilterPayload_defaults "E1")
                          [cand_a; cand_b; cand_c] eq_refl) ltac:(discriminate))
      as [res [Hres Hl]].
    exists res; split; assumption.
Defined.

(** ** Further properties of the handlers *)

Lemma py_count_defined {A} (p : A -> option bool) (l : list A) :
  py_count p l <> None <-> (forall x, In x l -> p x <> None).
Proof.
  induction l as [|x l IH]; simpl.
  - split; [intros _ y []|intros _; discriminate].
  - destruct (p x) as [b|] eqn:Ex, (py_count p l) as [n|] eqn:El.
    + split; [|intros _; discriminate].
      intros _ y [<-|Hy]; [rewrite Ex; discriminate|].
      apply (proj1 IH); [discriminate|exact Hy].
    + split; [intros H; contradiction|].
      intros H; exfalso; apply (proj2 IH); [|reflexivity].
      intros y Hy; apply H; now right.
    + split; [intros H; contradiction|].
      intros H; exfalso; exact (H x (or_introl eq_refl) Ex).
    + split; [intros H; contradiction|].
      intros H; exfalso; exact (H x (or_introl eq_refl) Ex).
Qed.

Lemma py_count_le {A} (p : A -> option bool) (l : list A) (n : nat) :
  py_count p l = Some n -> n <= length l.
Proof.
  revert n; induction l as [|x l IH]; simpl; intros n H.
  - injection H as <-; lia.
  - destruct (p x) as [b|], (py_count p l) as [m|] eqn:E; try discriminate.
    injection H as <-; specialize (IH m eq_refl); destruct b; lia.
Qed.

Lemma filter_disjoint_le {A} (f g : A -> bool) (l : list A) :
  (forall x, f x = true -> g x = false) ->
  length (filter f l) + length (filter g l) <= length l.
Proof.
  intros Hfg; induction l as [|x l IH]; simpl; [lia|].
  destruct (f x) eqn:Ef; [rewrite (Hfg x Ef)|destruct (g x)]; simpl; lia.
Qed.

Lemma hot_test_defined (x : row) :
  py_ge (py_get x "lead_heat_score" (VInt 0)) (VInt 70) <> None <-> heat_comparable x = true.
Proof.
  unfold heat_comparable, py_get.
  destruct (dict_lookup "lead_heat_score" x) as [[|b|z|t]|]; simpl;
    split; intros H; try discriminate; try reflexivity; try (exfalso; apply H; reflexivity).
Qed.

Lemma followups_test_some (today : string) (x : row) :
  (if py_truthy (py_get x "follow_up_at" VNone)
   then (v <- py_subscript x "follow_up_at" ;; Some (py_startswith (py_str v) today))
   else Some false) =
  Some (py_truthy (py_get x "follow_up_at" VNone) && follow_up_starts_with today x).
Proof.
  unfold follow_up_starts_with, py_get, py_subscript.
  destruct (dict_lookup "follow_up_at" x) as [v|]; simpl; [|reflexivity].
  destruct (py_truthy v); reflexivity.
Qed.

(** X1: once the candidates are fetched, the dashboard answers exactly
    when every row's heat score is absent or numeric; a null or textual
    heat score makes [>= 70] raise TypeError. *)
Theorem dashboard_defined_iff (be : backend) (today eid : string) (rows : list row) :
  run_select be (candidates_query eid) = Some rows ->
  (get_dashboard be today eid <> None <-> forallb heat_comparable rows = true).
Proof.
  intros Hsel; unfold get_dashboard; rewrite Hsel.
  rewrite (py_count_filter (fun x => Some (py_eq (py_get x "lead_status" VNone) (VStr "fresh")))
                           (fun x => py_eq (py_get x "lead_status" VNone) (VStr "fresh")))
    by (intros; reflexivity).
  rewrite (py_count_filter (fun x => Some (py_eq (py_get x "lead_status" VNone) (VStr "bargaining")))
                           (fun x => py_eq (py_get x "lead_status" VNone) (VStr "bargaining")))
    by (intros; reflexivity).
  rewrite (py_count_filter
             (fun x => if py_truthy (py_get x "follow_up_at" VNone)
                       then (v <- py_subscript x "follow_up_at" ;;
                             Some (py_startswith (py_str v) today))
                       else Some false)
             (fun x => py_truthy (py_get x "follow_up_at" VNone)
                       && follow_up_starts_with today x))
    by (intros x _; apply followups_test_some).
  rewrite forallb_forall.
  destruct (py_count (fun x => py_ge (py_get x "lead_heat_score" (VInt 0)) (VInt 70)) rows)
    eqn:E.
  - split; [intros _|intros _; discriminate].
    intros x Hx; apply hot_test_defined.
    apply (proj1 (py_count_defined
                    (fun x : dict => py_ge (py_get x "lead_heat_score" (VInt 0)) (VInt 70)) rows));
      [rewrite E; discriminate|exact Hx].
  - split; [intros H; contradiction|intros Hall; exfalso].
    apply (proj2 (py_count_defined
                    (fun x : dict => py_ge (py_get x "lead_heat_score" (VInt 0)) (VInt 70)) rows));
      [|exact E].
    intros x Hx; apply hot_test_defined, Hall, Hx.
Qed.

Lemma dashboard_defined_iff_witness :
  get_dashboard (rows_backend [cand_a; cand_b; cand_c]) "2026-10-18" "E1" <> None /\
  get_dashboard (rows_backend [cand_a; [("lead_heat_score", VNone)]]) "2026-10-18" "E1" = None.
Proof.
  split.
  - apply (proj2 (dashboard_defined_iff (rows_backend [cand_a; cand_b; cand_c])
                    "2026-10-18" "E1" _ eq_refl)); reflexivity.
  - destruct (get_dashboard _ _ _) eqn:E; [|reflexivity]; exfalso.
    assert (H : forallb heat_comparable [cand_a; [("lead_heat_score", VNone)]] = true).
    { apply (proj1 (dashboard_defined_iff (rows_backend [cand_a; [("lead_heat_score", VNone)]])
                      "2026-10-18" "E1" _ eq_refl)); rewrite E; discriminate. }
    discriminate H.
Defined.

(** X2: whenever the dashboard answers, hot leads and today's follow-ups
    are each at most the number of rows, and so are fresh and bargaining
    leads together (a status is one or the other). *)
Theorem dashboard_bounds (be : backend) (today eid : string) (s : dashboard_summary) :
  get_dashboard be today eid = Some s ->
  hot_leads s <= total_assigned s /\ followups_today s <= total_assigned s /\
  fresh s + bargainers s <= total_assigned s.
Proof.
  unfold get_dashboard.
  destruct (run_select be (candidates_query eid)) as [rows|]; [|discriminate].
  rewrite (py_count_filter (fun x => Some (py_eq (py_get x "lead_status" VNone) (VStr "fresh")))
                           (fun x => py_eq (py_get x "lead_status" VNone) (VStr "fresh")))
    by (intros; reflexivity).
  rewrite (py_count_filter (fun x => Some (py_eq (py_get x "lead_status" VNone) (VStr "bargaining")))
                           (fun x => py_eq (py_get x "lead_status" VNone) (VStr "bargaining")))
    by (intros; reflexivity).
  rewrite (py_count_filter
             (fun x => if py_truthy (py_get x "follow_up_at" VNone)
                       then (v <- py_subscript x "follow_up_at" ;;
                             Some (py_startswith (py_str v) today))
                       else Some false)
             (fun x => py_truthy (py_get x "follow_up_at" VNone)
                       && follow_up_starts_with today x))
    by (intros x _; apply followups_test_some).
  destruct (py_count (fun x : dict => py_ge (py_get x "lead_heat_score" (VInt 0)) (VInt 70)) rows)
    as [hot|] eqn:E; [|discriminate].
  intros H; injection H as <-; simpl.
  split; [exact (py_count_le _ _ _ E)|split].
  - apply filter_length_le.
  - apply filter_disjoint_le; intros x.
    destruct (py_get x "lead_status" VNone) as [| | |t]; simpl; try discriminate.
    intros Ht; apply String.eqb_eq in Ht; subst t; reflexivity.
Qed.

Lemma dashboard_bounds_witness :
  let s := DashboardSummary 3 2 1 2 1 in
  get_dashboard (rows_backend [cand_a; cand_b; cand_c]) "2026-10-18" "E1" = Some s /\
  (hot_leads s <= total_assigned s /\ followups_today s <= total_assigned s /\
   fresh s + bargainers s <= total_assigned s).
Proof.
  intros s; split; [reflexivity|].
  apply (dashboard_bounds (rows_backend [cand_a; cand_b; cand_c]) "2026-10-18" "E1").
  reflexivity.
Defined.

Lemma action_test_defined (s : string) (x : row) :
  (v <- py_subscript x "action_type" ;; Some (py_eq v (VStr s))) <> None <->
  has_action_type x = true.
Proof.
  unfold has_action_type, py_subscript.
  destruct (dict_lookup "action_type" x); split; intros H; try discriminate; try congruence.
Qed.

Lemma action_count (s : string) (rows : list row) :
  forallb has_action_type rows = true ->
  py_count (fun c : dict => v <- py_subscript c "action_type" ;; Some (py_eq v (VStr s))) rows =
  Some (length (filter (action_is s) rows)).
Proof.
  rewrite forallb_forall; intros H; apply py_count_filter; intros x Hx.
  specialize (H x Hx); unfold has_action_type, action_is, py_subscript in *.
  destruct (dict_lookup "action_type" x); [reflexivity|discriminate].
Qed.

Lemma action_count_all (s : string) (rows : list row) (n : nat) :
  py_count (fun c : dict => v <- py_subscript c "action_type" ;; Some (py_eq v (VStr s))) rows =
    Some n ->
  forallb has_action_type rows = true.
Proof.
  intros E; apply forallb_forall; intros x Hx.
  apply (proj1 (action_test_defined s x)).
  apply (proj1 (py_count_defined
                  (fun c : dict => v <- py_subscript c "action_type" ;; Some (py_eq v (VStr s)))
                  rows)); [rewrite E; discriminate|exact Hx].
Qed.

(** X3: once call logs and offers are fetched, the performance summary
    is the number of call logs, those whose [action_type] equals
    "connected", those equal to "not_lifted", and the number of offers,
    provided every call log has an [action_type] key; if one lacks it,
    the handler raises KeyError. *)
Theorem exec_perf_result (be : backend) (eid : string) (calls_rows offers_rows : list row) :
  run_select be (Query "db_call_logs" [Eq "executive_id" (VStr eid)]) = Some calls_rows ->
  run_select be (Query "db_offers_sent" [Eq "executive_id" (VStr eid)]) = Some offers_rows ->
  (forallb has_action_type calls_rows = true ->
   exec_perf be eid =
     Some (PerfSummary (length calls_rows)
                       (length (filter (action_is "connected") calls_rows))
                       (length (filter (action_is "not_lifted") calls_rows))
                       (length offers_rows))) /\
  (forallb has_action_type calls_rows = false -> exec_perf be eid = None).
Proof.
  intros Hc Ho; unfold exec_perf; rewrite Hc, Ho; split.
  - intros Hall; rewrite !action_count by exact Hall; reflexivity.
  - intros Hsome.
    destruct (py_count (fun c : dict => v <- py_subscript c "action_type" ;;
                                        Some (py_eq v (VStr "connected"))) calls_rows)
      as [n|] eqn:E; [|reflexivity].
    rewrite (action_count_all _ _ _ E) in Hsome; discriminate.
Qed.

Lemma exec_perf_result_witness :
  exec_perf (Backend (fun q => if String.eqb (q_table q) "db_call_logs"
                               then Some [[("action_type", VStr "connected")];
                                          [("action_type", VStr "not_lifted")];
                                          [("action_type", VStr "connected")]]
                               else Some [[("offer_id", VStr "O1")]])
                     (fun _ _ => Some [])) "E1" = Some (PerfSummary 3 2 1 1).
Proof.
  apply (proj1 (exec_perf_result
                  (Backend (fun q => if String.eqb (q_table q) "db_call_logs"
                                     then Some [[("action_type", VStr "connected")];
                                                [("action_type", VStr "not_lifted")];
                                                [("action_type", VStr "connected")]]
                                     else Some [[("offer_id", VStr "O1")]])
                           (fun _ _ => Some []))
                  "E1" _ _ eq_refl eq_refl)).
  reflexivity.
Defined.

(** X4: whenever the performance handler answers, connected and
    not-lifted calls together are at most the number of calls. *)
Theorem exec_perf_bounds (be : backend) (eid : string) (s : perf_summary) :
  exec_perf be eid = Some s -> connected s + not_lifted s <= calls s.
Proof.
  unfold exec_perf.
  destruct (run_select be (Query "db_call_logs" _)) as [rows|]; [|discriminate].
  destruct (run_select be (Query "db_offers_sent" _)) as [offs|]; [|discriminate].
  destruct (py_count (fun c : dict => v <- py_subscript c "action_type" ;;
                                      Some (py_eq v (VStr "connected"))) rows)
    as [n|] eqn:E; [|discriminate].
  pose proof (action_count_all _ _ _ E) as Hall.
  rewrite (action_count _ _ Hall) in E.
  rewrite (action_count "not_lifted" _ Hall).
  injection E as <-; intros H; injection H as <-; simpl.
  apply filter_disjoint_le; intros x; unfold action_is.
  destruct (dict_lookup "action_type" x) as [[| | |t]|]; simpl; try discriminate.
  intros Ht; apply String.eqb_eq in Ht; subst t; reflexivity.
Qed.

Lemma exec_perf_bounds_witness :
  exec_perf (Backend (fun q => if String.eqb (q_table q) "db_call_logs"
                               then Some [[("action_type", VStr "connected")];
                                          [("action_type", VStr "busy")]]
                               else Some [])
                     (fun _ _ => Some [])) "E1" = Some (PerfSummary 2 1 0 0) /\
  1 + 0 <= 2.
Proof.
  split; [reflexivity|].
  apply (exec_perf_bounds (Backend (fun q => if String.eqb (q_table q) "db_call_logs"
                                             then Some [[("action_type", VStr "connected")];
                                                        [("action_type", VStr "busy")]]
                                             else Some [])
                                   (fun _ _ => Some [])) "E1" (PerfSummary 2 1 0 0)).
  reflexivity.
Defined.

Lemma sorted_newest_perm (l out : list row) :
  sorted_newest l = Some out -> Permutation l out.
Proof.
  unfold sorted_newest.
  destruct (forallb is_str (map created_key l)).
  - intros H; injection H as <-; apply Permutation_sym.
    exact (isort_desc_perm _ _ (fun x => as_str (created_key x)) str_lt l).
  - destruct (forallb is_num (map created_key l)).
    + intros H; injection H as <-; apply Permutation_sym.
      exact (isort_desc_perm _ _ (fun x => as_num (created_key x)) Z.ltb l).
    + destruct (Nat.leb (length l) 1); [|discriminate].
      intros H; injection H as <-; reflexivity.
Qed.

(** X5: both lead-list handlers return exactly the fetched rows, possibly
    reordered: none is added or dropped, [lead_count] is their number,
    and the echoed executive id is the requested one. *)
Theorem lead_lists_keep_rows :
  (forall be today eid status heat_min fud sort res,
     lead_list_get be today eid status heat_min fud sort = Some res ->
     exists data,
       run_select be (lead_list_get_query today eid status heat_min fud) = Some data /\
       Permutation data (leads res) /\ lead_count res = length data /\
       ll_executive_id res = eid) /\
  (forall be payload res,
     lead_list_post be payload = Some res ->
     exists data,
       run_rpc be "get_leads_filtered" (lead_list_post_params payload) = Some data /\
       Permutation data (leads res) /\ lead_count res = length data /\
       ll_executive_id res = executive_id payload).
Proof.
  split.
  - intros be today eid status heat_min fud sort res; unfold lead_list_get.
    destruct (run_select be _) as [data|]; [|discriminate].
    intros H; exists data; split; [reflexivity|].
    destruct (if is_newest sort then sorted_newest data else Some data) as [out|] eqn:E;
      [|discriminate].
    injection H as <-; simpl.
    assert (Hp : Permutation data out).
    { destruct (is_newest sort); [exact (sorted_newest_perm _ _ E)|injection E as <-; reflexivity]. }
    split; [exact Hp|split; [symmetry; apply Permutation_length, Hp|reflexivity]].
  - intros be payload res; unfold lead_list_post.
    destruct (run_rpc be _ _) as [data|]; [|discriminate].
    intros H; exists data; split; [reflexivity|].
    destruct (if is_newest (sort_by payload) then sorted_newest data else Some data) as [out|] eqn:E;
      [|discriminate].
    injection H as <-; simpl.
    assert (Hp : Permutation data out).
    { destruct (is_newest (sort_by payload));
        [exact (sorted_newest_perm _ _ E)|injection E as <-; reflexivity]. }
    split; [exact Hp|split; [symmetry; apply Permutation_length, Hp|reflexivity]].
Qed.

Lemma lead_lists_keep_rows_witness :
  exists data,
    run_select (rows_backend [cand_a; cand_b; cand_c])
      (lead_list_get_query "2026-10-18" "E1" None None None) = Some data /\
    Permutation data [cand_b; cand_a; cand_c] /\ 3 = length data /\ "E1" = "E1".
Proof.
  exact (proj1 lead_lists_keep_rows (rows_backend [cand_a; cand_b; cand_c]) "2026-10-18" "E1"
           None None None (Some "newest") (LeadList "E1" 3 [cand_b; cand_a; cand_c]) eq_refl).
Defined.

(** X8: the profile lookup returns the one executive row matching the
    phone number, and raises when two or more rows match. *)
Theorem get_profile_single_match (be : backend) (phone : string) :
  (forall r, r <> [] ->
     run_select be (Query "db_executives" [Eq "mobile" (VStr phone)]) = Some [r] ->
     get_profile be phone = Some r) /\
  (forall r1 r2 rest,
     run_select be (Query "db_executives" [Eq "mobile" (VStr phone)]) = Some (r1 :: r2 :: rest) ->
     get_profile be phone = None).
Proof.
  split.
  - intros r Hr H; unfold get_profile; rewrite H; simpl.
    destruct r; [contradiction|reflexivity].
  - intros r1 r2 rest H; unfold get_profile; rewrite H; reflexivity.
Qed.

Lemma get_profile_single_match_witness :
  get_profile (rows_backend [[("name", VStr "Asha"); ("mobile", VStr "5550100")]]) "5550100" =
    Some [("name", VStr "Asha"); ("mobile", VStr "5550100")] /\
  get_profile (rows_backend [cand_a; cand_b]) "5550100" = None.
Proof.
  split.
  - apply (proj1 (get_profile_single_match _ "5550100")); [discriminate|reflexivity].
  - apply (proj2 (get_profile_single_match (rows_backend [cand_a; cand_b]) "5550100") cand_a cand_b []).
    reflexivity.
Defined.

(** X9: the lead detail returns the one matching candidate row with the
    timeline and offers the two procedures deliver, and raises when two
    or more candidate rows match the id. *)
Theorem lead_detail_single_match (be : backend) (id : Z) :
  (forall r tl ofs,
     run_select be (Query "db_candidates" [Eq "id" (VInt id)]) = Some [r] ->
     run_rpc be "get_timeline" [("p_candidate_id", VInt id)] = Some tl ->
     run_rpc be "get_offers_for_candidate" [("p_candidate_id", VInt id)] = Some ofs ->
     lead_detail be id = Some (LeadDetail (Some r) tl ofs)) /\
  (forall r1 r2 rest,
     run_select be (Query "db_candidates" [Eq "id" (VInt id)]) = Some (r1 :: r2 :: rest) ->
     lead_detail be id = None).
Proof.
  split.
  - intros r tl ofs Hc Ht Ho; unfold lead_detail; rewrite Hc; simpl; rewrite Ht, Ho; reflexivity.
  - intros r1 r2 rest Hc; unfold lead_detail; rewrite Hc; reflexivity.
Qed.

Lemma lead_detail_single_match_witness :
  lead_detail (rows_backend [cand_a]) 1 = Some (LeadDetail (Some cand_a) [cand_a] [cand_a]) /\
  lead_detail (rows_backend [cand_a; cand_b]) 1 = None.
Proof.
  split.
  - apply (proj1 (lead_detail_single_match (rows_backend [cand_a]) 1)); reflexivity.
  - apply (proj2 (lead_detail_single_match (rows_backend [cand_a; cand_b]) 1) cand_a cand_b []).
    reflexivity.
Defined.

(** X10: when exactly one executive row matches, the manager view gives
    that row's name ([""] when it has no name key), the number of the
    executive's candidates and the candidate rows; two or more matching
    executive rows make it raise. *)
Theorem manager_leads_found (be : backend) (eid : string) :
  (forall p rows,
     run_select be (Query "db_executives" [Eq "executive_id" (VStr eid)]) = Some [p] ->
     run_select be (candidates_query eid) = Some rows ->
     manager_leads be eid = Some (ManagerView (py_get p "name" (VStr "")) (length rows) rows)) /\
  (forall p1 p2 rest,
     run_select be (Query "db_executives" [Eq "executive_id" (VStr eid)]) = Some (p1 :: p2 :: rest) ->
     manager_leads be eid = None).
Proof.
  split.
  - intros p rows He Hc; unfold manager_leads; rewrite He; simpl; rewrite Hc; reflexivity.
  - intros p1 p2 rest He; unfold manager_leads; rewrite He; reflexivity.
Qed.

Lemma manager_leads_found_witness :
  manager_leads (Backend (fun q => if String.eqb (q_table q) "db_executives"
                                   then Some [[("executive_id", VStr "E1")]]
                                   else Some [cand_a; cand_b])
                         (fun _ _ => Some [])) "E1" =
    Some (ManagerView (VStr "") 2 [cand_a; cand_b]) /\
  manager_leads (rows_backend [cand_a; cand_b]) "E1" = None.
Proof.
  split.
  - apply (proj1 (manager_leads_found
                    (Backend (fun q => if String.eqb (q_table q) "db_executives"
                                       then Some [[("executive_id", VStr "E1")]]
                                       else Some [cand_a; cand_b])
                             (fun _ _ => Some [])) "E1")
                 [("executive_id", VStr "E1")] [cand_a; cand_b]); reflexivity.
  - apply (proj2 (manager_leads_found (rows_backend [cand_a; cand_b]) "E1") cand_a cand_b []).
    reflexivity.
Defined.
